(** * BloodGrid server: request lifecycle, identity gate and listings

    A shallow embedding of the Express handlers of [index.js] (the
    running server) and of the earlier server file kept beside it (called
    the "first server" below), over an idealised document store.

    The store stands for the MongoDB collections the handlers talk to.  It
    keeps documents in natural (insertion) order, gives every document an
    identifier kept beside its fields, matches an equality filter by
    comparing each named top-level field with the given value, and lets
    [$set] write top-level fields.  Each handler runs to completion on the
    store it is given: one call to [updateOne] is one atomic step. *)

From Stdlib Require Import ZArith Ascii String List Lia.
From stdpp Require Import base option gmap strings list sorting.

Local Open Scope string_scope.
Local Open Scope list_scope.
Local Open Scope Z_scope.

Set Warnings "-register-all".

(** ** JSON values, as [express.json()] hands them to the handlers *)

Inductive json : Type :=
| JNull
| JBool (b : bool)
| JNum (n : Z)
| JStr (s : string)
| JArr (items : list json)
| JObj (members : list (string * json)).

Fixpoint json_eqb (x y : json) {struct x} : bool :=
  let fix all_eqb (l1 l2 : list json) {struct l1} : bool :=
    match l1, l2 with
    | [], [] => true
    | a :: l1', b :: l2' => json_eqb a b && all_eqb l1' l2'
    | _, _ => false
    end in
  let fix members_eqb (l1 l2 : list (string * json)) {struct l1} : bool :=
    match l1, l2 with
    | [], [] => true
    | (k1, a) :: l1', (k2, b) :: l2' =>
        String.eqb k1 k2 && json_eqb a b && members_eqb l1' l2'
    | _, _ => false
    end in
  match x, y with
  | JNull, JNull => true
  | JBool a, JBool b => Bool.eqb a b
  | JNum a, JNum b => Z.eqb a b
  | JStr a, JStr b => String.eqb a b
  | JArr a, JArr b => all_eqb a b
  | JObj a, JObj b => members_eqb a b
  | _, _ => false
  end.

(** Size of a value, the measure of the induction that proves [json_eqb]
    sound. *)
Fixpoint json_size (x : json) : nat :=
  match x with
  | JArr l => S (list_sum (map json_size l))
  | JObj l => S (list_sum (map (λ kv, json_size (snd kv)) l))
  | _ => 1%nat
  end.

Lemma json_eqb_spec_sized (n : nat) :
  ∀ x y, (json_size x < n)%nat → json_eqb x y = true ↔ x = y.
Proof.
  induction n as [|n IH]; [intros; lia|].
  intros x y Hn. destruct x, y; simpl; try (split; [discriminate|congruence]).
  - done.
  - rewrite Bool.eqb_true_iff. split; congruence.
  - rewrite Z.eqb_eq. split; congruence.
  - rewrite String.eqb_eq. split; congruence.
  - simpl in Hn.
    assert (Hl : ∀ l1 l2, (list_sum (map json_size l1) < n)%nat →
       (fix all_eqb (l1 l2 : list json) {struct l1} : bool :=
          match l1, l2 with
          | [], [] => true
          | a :: l1', b :: l2' => json_eqb a b && all_eqb l1' l2'
          | _, _ => false
          end) l1 l2 = true ↔ l1 = l2).
    { induction l1 as [|a l1 IHl]; intros [|b l2] Hs; simpl in *;
        try (split; [discriminate|congruence]); [done|].
      rewrite andb_true_iff, IH, IHl by lia.
      split; [by intros [-> ->]|by intros [= -> ->]]. }
    rewrite Hl by lia. split; congruence.
  - simpl in Hn.
    assert (Hl : ∀ l1 l2,
       (list_sum (map (λ kv : string * json, json_size (snd kv)) l1) < n)%nat →
       (fix members_eqb (l1 l2 : list (string * json)) {struct l1} : bool :=
          match l1, l2 with
          | [], [] => true
          | (k1, a) :: l1', (k2, b) :: l2' =>
              String.eqb k1 k2 && json_eqb a b && members_eqb l1' l2'
          | _, _ => false
          end) l1 l2 = true ↔ l1 = l2).
    { induction l1 as [|[k1 a] l1 IHl]; intros [|[k2 b] l2] Hs; simpl in *;
        try (split; [discriminate|congruence]); [done|].
      rewrite !andb_true_iff, String.eqb_eq, IH, IHl by lia.
      split; [by intros [[-> ->] ->]|by intros [= -> -> ->]]. }
    rewrite Hl by lia. split; congruence.
Qed.

Lemma json_eqb_eq (x y : json) : json_eqb x y = true ↔ x = y.
Proof. apply (json_eqb_spec_sized (S (json_size x))). lia. Qed.

#[global] Instance json_eq_dec : EqDecision json.
Proof.
  intros x y. destruct (json_eqb x y) eqn:E.
  - left. by apply json_eqb_eq.
  - right. intros H. apply json_eqb_eq in H. congruence.
Defined.

(** JavaScript truthiness of a value that may be [undefined] ([None]). *)
Definition truthy (v : option json) : bool :=
  match v with
  | None | Some JNull => false
  | Some (JBool b) => b
  | Some (JNum n) => negb (n =? 0)
  | Some (JStr s) => negb (String.eqb s "")
  | Some (JArr _) | Some (JObj _) => true
  end.

(** [a !== b] on a parsed JSON value and a value read back from the
    store: primitives compare by value, an array or an object is a fresh
    reference and differs from everything. *)
Definition strict_neq (a : json) (b : option json) : bool :=
  match a, b with
  | JNull, Some JNull => false
  | JBool x, Some (JBool y) => negb (Bool.eqb x y)
  | JNum x, Some (JNum y) => negb (x =? y)
  | JStr x, Some (JStr y) => negb (String.eqb x y)
  | _, _ => true
  end.

(** An [undefined] member written into a stored sub-document is
    serialised as null. *)
Definition or_null (v : option json) : json := default JNull v.

(** ** The document store *)

(** A stored document: the identifier the store gave it and its top-level
    fields. *)
Record document := Doc { doc_id : N; doc_fields : gmap string json }.

#[global] Instance document_eq_dec : EqDecision document.
Proof. solve_decision. Defined.

(** A query document: an optional [_id] and equality conditions on
    fields, as in [{ _id: new ObjectId(id), status: "pending" }].  A
    condition on null also matches a document without the field. *)
Record selector := Selector { by_id : option N; by_fields : gmap string json }.

Definition matches (q : selector) (d : document) : Prop :=
  from_option (λ i, doc_id d = i) True (by_id q)
  ∧ map_Forall (λ k v, or_null (doc_fields d !! k) = v) (by_fields q).

#[global] Instance matches_dec q d : Decision (matches q d).
Proof. unfold matches. destruct (by_id q); simpl; apply _. Defined.

Definition everything : selector := Selector None ∅.
Definition with_id (i : N) : selector := Selector (Some i) ∅.
Definition with_field (k : string) (v : json) : selector :=
  Selector None {[ k := v ]}.

Record update_result := Updated { matchedCount : nat; modifiedCount : nat }.

Module Store.

Definition find (q : selector) (c : list document) : list document :=
  filter (matches q) c.

Definition findOne (q : selector) (c : list document) : option document :=
  snd <$> list_find (matches q) c.

Definition countDocuments (q : selector) (c : list document) : nat :=
  length (find q c).

Definition fresh_id (c : list document) : N :=
  N.succ (foldr N.max 0%N (doc_id <$> c)).

(** [insertOne(fields)]: the new document goes last. *)
Definition insertOne (fields : gmap string json) (c : list document)
  : list document * N :=
  let i := fresh_id c in (c ++ [Doc i fields], i).

(** [{ $set: patch }] on one document: the patch's fields win, the
    others stay. *)
Definition set_fields (patch : gmap string json) (d : document) : document :=
  Doc (doc_id d) (patch ∪ doc_fields d).

(** [updateOne(q, { $set: patch })]: the first document matching [q]
    is rewritten in place; [modifiedCount] counts it only if it changed. *)
Definition updateOne (q : selector) (patch : gmap string json)
    (c : list document) : list document * update_result :=
  match list_find (matches q) c with
  | None => (c, Updated 0 0)
  | Some (i, d) =>
      let d' := set_fields patch d in
      (<[i := d']> c, Updated 1 (if decide (d' = d) then 0 else 1))
  end.

End Store.

(** The four collections of [bloodGrid_DB]. *)
Record db := Db {
  usersCollection : list document;
  requestsCollection : list document;
  blogsCollection : list document;
  paymentsCollection : list document }.

Definition set_users (c : list document) (s : db) : db :=
  Db c (requestsCollection s) (blogsCollection s) (paymentsCollection s).
Definition set_requests (c : list document) (s : db) : db :=
  Db (usersCollection s) c (blogsCollection s) (paymentsCollection s).
Definition set_blogs (c : list document) (s : db) : db :=
  Db (usersCollection s) (requestsCollection s) c (paymentsCollection s).

(** ** Text helpers: [split], [ObjectId], [parseInt], [Number] *)

(** [s.split(sep)] for a one-character separator. *)
Fixpoint split_on (sep : ascii) (s : string) : list string :=
  match s with
  | EmptyString => [EmptyString]
  | String c s' =>
      if Ascii.eqb c sep then EmptyString :: split_on sep s'
      else match split_on sep s' with
           | [] => [String c EmptyString]
           | w :: ws => String c w :: ws
           end
  end.

Definition code (c : ascii) : Z := Z.of_N (N_of_ascii c).

Definition digit_val (c : ascii) : option Z :=
  let n := code c in
  if (48 <=? n) && (n <=? 57) then Some (n - 48) else None.

Definition hex_val (c : ascii) : option Z :=
  let n := code c in
  if (48 <=? n) && (n <=? 57) then Some (n - 48)
  else if (97 <=? n) && (n <=? 102) then Some (n - 87)
  else if (65 <=? n) && (n <=? 70) then Some (n - 55)
  else None.

(** Value of the longest prefix of digits; [acc] is [None] until a digit
    has been read. *)
Fixpoint leading_digits (val : ascii → option Z) (radix : Z)
    (acc : option Z) (s : string) : option Z :=
  match s with
  | EmptyString => acc
  | String c s' =>
      match val c with
      | Some d => leading_digits val radix (Some (radix * default 0 acc + d)) s'
      | None => acc
      end
  end.

(** Value of a string made of digits only. *)
Fixpoint only_digits (val : ascii → option Z) (radix : Z)
    (acc : option Z) (s : string) : option Z :=
  match s with
  | EmptyString => acc
  | String c s' =>
      match val c with
      | Some d => only_digits val radix (Some (radix * default 0 acc + d)) s'
      | None => None
      end
  end.

(** [new ObjectId(id)] on a route parameter: 24 hexadecimal characters, or
    the constructor throws ([None]); the 12-byte form that older drivers
    also took is left out. *)
Definition ObjectId (id : string) : option N :=
  if decide (String.length id = 24%nat)
  then Z.to_N <$> only_digits hex_val 16 None id
  else None.

Definition is_space (c : ascii) : bool :=
  let n := code c in (n =? 32) || ((9 <=? n) && (n <=? 13)).

Fixpoint skip_spaces (s : string) : string :=
  match s with
  | String c s' => if is_space c then skip_spaces s' else s
  | EmptyString => EmptyString
  end.

Definition split_sign (s : string) : Z * string :=
  match s with
  | String c r =>
      if Ascii.eqb c "-" then (-1, r)
      else if Ascii.eqb c "+" then (1, r) else (1, s)
  | EmptyString => (1, s)
  end.

Definition hex_prefixed (s : string) : option string :=
  match s with
  | String c (String x r) =>
      if Ascii.eqb c "0" && (Ascii.eqb x "x" || Ascii.eqb x "X")
      then Some r else None
  | _ => None
  end.

(** [parseInt(s)]: leading white space, a sign, then the longest run of
    digits (hexadecimal after [0x]); [None] is NaN. *)
Definition parseInt (s : string) : option Z :=
  let '(sign, t) := split_sign (skip_spaces s) in
  (λ n, sign * n) <$>
    match hex_prefixed t with
    | Some r => leading_digits hex_val 16 None r
    | None => leading_digits digit_val 10 None t
    end.

Definition trim (s : string) : string :=
  String.rev (skip_spaces (String.rev (skip_spaces s))).

(** [Number(s)], the coercion applied by [total / limit], on the integer
    literals: white space around, then nothing (0), a signed decimal or an
    unsigned hexadecimal numeral.  [None] stands for every other outcome:
    NaN, Infinity, or a literal with a fraction or an exponent. *)
Definition toNumber (s : string) : option Z :=
  let t := trim s in
  if String.eqb t "" then Some 0
  else match hex_prefixed t with
       | Some r => only_digits hex_val 16 None r
       | None =>
           let '(sign, u) := split_sign t in
           (λ n, sign * n) <$> only_digits digit_val 10 None u
       end.

(** [Math.ceil(total / size)] for a positive [size]. *)
Definition ceil_div (total size : Z) : Z := (total + size - 1) / size.

(** ** Requests, responses and middleware *)

(** The claims of a verified identity token. *)
Record claims := Claims { email : option string }.

Record request := Request {
  authorization : option string;      (* req.headers.authorization *)
  params : gmap string string;        (* req.params *)
  query : gmap string string;         (* req.query *)
  body : gmap string json;            (* req.body *)
  decoded : option claims }.          (* req.decoded *)

Definition set_decoded (d : claims) (req : request) : request :=
  Request (authorization req) (params req) (query req) (body req) (Some d).

Inductive payload : Type :=
| Message (m : string)                      (* { message } *)
| Failure (m : string)                      (* { error } *)
| Inserted (insertedId : N) (m : string)    (* { insertedId, ..., message } *)
| Modified (m : string) (n : nat)           (* { message, modifiedCount } *)
| ModifiedCount (n : nat)                   (* { modifiedCount } *)
| Many (items : list document)
| Page (items : list document) (totalPages : Z)
| UsersPage (items : list document) (totalPages : Z) (total : nat).

Record response := Response { status : Z; sent : payload }.

(** [res.send(x)] without [res.status] answers 200. *)
Definition send (x : payload) : response := Response 200 x.

(** A middleware either calls [next()] or answers itself. *)
Inductive passage : Type :=
| Next (req : request)
| Reply (res : response).

Definition middleware : Type := request → db → passage.

Fixpoint pass (ms : list middleware) (req : request) (s : db) : passage :=
  match ms with
  | [] => Next req
  | m :: ms' =>
      match m req s with
      | Next req' => pass ms' req' s
      | Reply res => Reply res
      end
  end.

(** [app.METHOD(path, ...ms, handler)] for a handler that may write. *)
Definition route (ms : list middleware)
    (handler : request → db → db * response) (req : request) (s : db)
  : db * response :=
  match pass ms req s with
  | Next req' => handler req' s
  | Reply res => (s, res)
  end.

(** The same for a handler that only reads; [None] is a handler that
    leaves the modelled domain (see the listings below). *)
Definition read_route (ms : list middleware)
    (handler : request → db → option response) (req : request) (s : db)
  : option response :=
  match pass ms req s with
  | Next req' => handler req' s
  | Reply res => Some res
  end.

(** A route parameter or query value used as a string in a selector;
    [undefined] is sent to the store as null. *)
Definition text (v : option string) : json := or_null (JStr <$> v).

Definition nonempty (v : option string) : bool :=
  match v with
  | Some s => negb (String.eqb s "")
  | None => false
  end.

(** [if (cond) obj[k] = v] *)
Definition put_if (cond : bool) (k : string) (v : json)
    (obj : gmap string json) : gmap string json :=
  if cond then <[k := v]> obj else obj.

(** *** Guards of [index.js] that consult the stored account *)

(** An exception that escapes an [async] function (here: reading [email]
    of an absent [req.decoded]) ends in the framework's own 500. *)
Definition uncaught : response :=
  Response 500 (Failure "Internal Server Error").

Definition forbidden : response := Response 403 (Message "Forbidden access.").

Definition verifyAdmin : middleware := λ req s,
  match decoded req with
  | None => Reply uncaught
  | Some d =>
      let user := Store.findOne (with_field "email" (text (email d)))
                    (usersCollection s) in
      match user with
      | None => Reply forbidden
      | Some u =>
          if strict_neq (JStr "admin") (doc_fields u !! "role")
          then Reply forbidden
          else Next req
      end
  end.

Definition verifyAdminVolunteer : middleware := λ req s,
  let no_email :=
    Response 401 (Message "Unauthorized access: No email in token.") in
  let denied :=
    Response 403 (Message "Forbidden access: Admin or Volunteer only.") in
  match decoded req ≫= email with
  | None => Reply no_email
  | Some e =>
      if String.eqb e "" then Reply no_email
      else
        match Store.findOne (with_field "email" (JStr e)) (usersCollection s) with
        | None => Reply denied
        | Some u =>
            if strict_neq (JStr "admin") (doc_fields u !! "role")
               && strict_neq (JStr "volunteer") (doc_fields u !! "role")
            then Reply denied
            else Next req
        end
  end.

Definition verifyEmailQueryMatch : middleware := λ req _,
  let queryEmail := query req !! "email" in
  let decodedEmail := decoded req ≫= email in
  if negb (nonempty queryEmail) || negb (bool_decide (queryEmail = decodedEmail))
  then Reply (Response 403 (Message "Forbidden access: Email mismatch"))
  else Next req.

(** ** Sorting by a field, newest first *)

(** Sort key of a field under the store's order of values: null (or no
    field) first, then numbers, strings, objects, arrays, booleans; strings
    by their bytes.  Objects and arrays are not ordered further. *)
Definition sort_key (v : option json) : list Z :=
  match v with
  | None | Some JNull => [1]
  | Some (JNum n) => [2; n]
  | Some (JStr t) => 3 :: (code <$> list_ascii_of_string t)
  | Some (JObj _) => [4]
  | Some (JArr _) => [5]
  | Some (JBool b) => [8; if b then 1 else 0]
  end.

Fixpoint lex_le (a b : list Z) : bool :=
  match a, b with
  | [], _ => true
  | _ :: _, [] => false
  | x :: a', y :: b' => (x <? y) || ((x =? y) && lex_le a' b')
  end.

(** [d1] may come before [d2] under [sort({ k: -1 })]. *)
Definition not_older (k : string) (d1 d2 : document) : Prop :=
  lex_le (sort_key (doc_fields d2 !! k)) (sort_key (doc_fields d1 !! k)) = true.

#[global] Instance not_older_dec k : RelDecision (not_older k).
Proof. intros d1 d2. unfold not_older. apply _. Defined.

Definition sort_desc (k : string) (c : list document) : list document :=
  merge_sort (not_older k) c.

(** ** Handlers of [index.js]

    Each handler is the body of the [async (req, res) => ...] passed to
    [app.METHOD]; [now] is what [new Date().toISOString()] returns. *)

Definition route_id (req : request) : option N :=
  ObjectId (default "" (params req !! "id")).


(** The selector [{ email }] of the profile update. *)
Definition account_of (req : request) : selector :=
  with_field "email" (text (params req !! "email")).

(** [PUT /user/update/:email].  An empty [$set] is a no-op for the store
    (the stable API the client asks for implies a server that takes it). *)
Definition put_user_update (req : request) (s : db) : db * response :=
  let updatedData := body req in
  let '(c, result) :=
    Store.updateOne (account_of req) updatedData (usersCollection s) in
  if decide (0 < modifiedCount result)%nat
  then (set_users c s, send (Message "Profile updated successfully"))
  else (set_users c s,
        Response 404 (Message "User not found or no changes made")).

(** [POST /donation-requests] *)
Definition post_donation_requests (now : string) (req : request) (s : db)
  : db * response :=
  let requestData := body req in
  let requestData := <["createdAt" := JStr now]> requestData in
  let requestData := <["status" := JStr "pending"]> requestData in
  let '(c, i) := Store.insertOne requestData (requestsCollection s) in
  (set_requests c s,
   Response 201 (Inserted i "Donation request has been created.")).

(** A numeric query parameter with its destructuring default, after
    [parseInt]. *)
Definition int_param (dflt : Z) (v : option string) : option Z :=
  match v with
  | None => Some dflt
  | Some t => parseInt t
  end.

(** [{ requesterEmail: email }], with [status] added when it is given. *)
Definition requests_of (email status : option string) : selector :=
  Selector None
    (put_if (nonempty status) "status" (text status)
       {[ "requesterEmail" := text email ]}).

(** [GET /my-donation-requests/user].  The cursor sorts before it skips
    and limits, whatever the order of the calls that build it.  The answer
    is [None] when [page] or [limit] is not a positive integer: what
    happens then rests on the driver's handling of NaN, zero and negative
    counts, and the handler has no [catch] of its own. *)
Definition get_my_donation_requests (req : request) (s : db)
  : option response :=
  let email := query req !! "email" in
  let status := query req !! "status" in
  match int_param 5 (query req !! "limit"), int_param 1 (query req !! "page") with
  | Some parsedLimit, Some page =>
      if (1 <=? parsedLimit) && (1 <=? page) then
        let skip := (page - 1) * parsedLimit in
        let q := requests_of email status in
        let total := Store.countDocuments q (requestsCollection s) in
        let requests :=
          take (Z.to_nat parsedLimit)
            (drop (Z.to_nat skip)
               (sort_desc "createdAt" (Store.find q (requestsCollection s)))) in
        Some (send (Page requests (ceil_div (Z.of_nat total) parsedLimit)))
      else None
  | _, _ => None
  end.

(** [PATCH /donation-requests/:id/donate] *)
Definition patch_donate (req : request) (s : db) : db * response :=
  let status := body req !! "status" in
  let donorName := body req !! "donorName" in
  let donorEmail := body req !! "donorEmail" in
  let updateFields := put_if (truthy status) "status" (or_null status) ∅ in
  let updateFields :=
    put_if (truthy donorName && truthy donorEmail) "donor"
      (JObj [("name", or_null donorName); ("email", or_null donorEmail)])
      updateFields in
  if decide (size updateFields = 0%nat)
  then (s, Response 400
             (Message "Nothing to update. Provide status or donor info."))
  else
    match route_id req with
    | None => (s, Response 500 (Message "Error updating donation request."))
    | Some i =>
        let '(c, updateResult) :=
          Store.updateOne (with_id i) updateFields (requestsCollection s) in
        if decide (modifiedCount updateResult = 0%nat)
        then (set_requests c s,
              Response 400
                (Message "No changes applied. The request might not exist or is already updated."))
        else (set_requests c s,
              send (Message "Donation request updated successfully."))
    end.

(** The [status] filter of the admin listings: [status !== "all" ? { status } : {}]. *)
Definition status_filter (v : option string) : selector :=
  let status := default "all" v in
  if String.eqb status "all" then everything
  else with_field "status" (JStr status).

(** [limit] as [total / limit] coerces it. *)
Definition num_param (dflt : Z) (v : option string) : option Z :=
  match v with
  | None => Some dflt
  | Some t => toNumber t
  end.

(** Page of an admin listing over collection [c], with [totalPages]:
    [find(filter).skip(..).limit(..)] and [countDocuments()].  [None]
    outside the positive integers, as above. *)
Definition admin_page (c : list document) (req : request)
  : option (list document * Z * nat) :=
  let filter := status_filter (query req !! "status") in
  match int_param 1 (query req !! "page"), int_param 10 (query req !! "limit"),
        num_param 10 (query req !! "limit") with
  | Some page, Some parsedLimit, Some limit =>
      if (1 <=? page) && (1 <=? parsedLimit) && (1 <=? limit) then
        let items :=
          take (Z.to_nat parsedLimit)
            (drop (Z.to_nat ((page - 1) * parsedLimit)) (Store.find filter c)) in
        let total := Store.countDocuments everything c in
        Some (items, ceil_div (Z.of_nat total) limit, total)
      else None
  | _, _, _ => None
  end.

(** [GET /admin/users] *)
Definition get_admin_users (req : request) (s : db) : option response :=
  '(users, totalPages, total) ← admin_page (usersCollection s) req;
  Some (send (UsersPage users totalPages total)).

(** [GET /admin/donation-requests] *)
Definition get_admin_donation_requests (req : request) (s : db)
  : option response :=
  '(requests, totalPages, _) ← admin_page (requestsCollection s) req;
  Some (send (Page requests totalPages)).

(** [PATCH /admin/users/:id] *)
Definition patch_admin_user (req : request) (s : db) : db * response :=
  let updates := body req in
  if negb (truthy (updates !! "role")) && negb (truthy (updates !! "status"))
  then (s, Response 400 (Failure "No valid fields to update."))
  else
    match route_id req with
    | None => (s, Response 500 (Failure "Failed to update user."))
    | Some i =>
        let set := put_if (truthy (updates !! "role")) "role"
                     (or_null (updates !! "role")) ∅ in
        let set := put_if (truthy (updates !! "status")) "status"
                     (or_null (updates !! "status")) set in
        let '(c, result) := Store.updateOne (with_id i) set (usersCollection s) in
        if decide (matchedCount result = 0%nat)
        then (set_users c s, Response 404 (Failure "User not found."))
        else (set_users c s,
              send (Modified "User updated successfully." (modifiedCount result)))
    end.

(** [statusInUpdate && updatedFields.status !== blog.status] *)
Definition status_changed (updatedFields : gmap string json) (blog : document)
  : bool :=
  match updatedFields !! "status" with
  | Some v => strict_neq v (doc_fields blog !! "status")
  | None => false
  end.

(** [PATCH /blogs/:id] *)
Definition patch_blog (now : string) (req : request) (s : db) : db * response :=
  match route_id req with
  | None => (s, Response 500 (Message "Failed to update blog"))
  | Some i =>
      let updatedFields := body req in
      match Store.findOne (with_id i) (blogsCollection s) with
      | None => (s, Response 404 (Message "Blog not found"))
      | Some blog =>
          let statusChanged := status_changed updatedFields blog in
          let updatedFields :=
            put_if (negb statusChanged) "updatedAt" (JStr now) updatedFields in
          let '(c, result) :=
            Store.updateOne (with_id i) updatedFields (blogsCollection s) in
          if decide (matchedCount result = 0%nat)
          then (set_blogs c s, Response 404 (Message "Blog not found"))
          else (set_blogs c s, send (ModifiedCount (modifiedCount result)))
      end
  end.

(** [GET /fundraiser-payments] *)
Definition get_fundraiser_payments (req : request) (s : db) : option response :=
  Some (send (Many (sort_desc "paidAt" (paymentsCollection s)))).

(** ** The claim handler of the first server

    [PATCH /donation-requests/:id/donate] as the earlier server file has
    it: the selector carries [status: "pending"], and the written fields
    are fixed. *)
Module FirstServer.

(** [{ _id: new ObjectId(id), status: "pending" }] *)
Definition claimable (i : N) : selector :=
  Selector (Some i) {[ "status" := JStr "pending" ]}.

(** [{ status: "inprogress", donar: { donorName, donorEmail } }] *)
Definition claim_fields (donorInfo : gmap string json) : gmap string json :=
  <["status" := JStr "inprogress"]>
    {[ "donar" :=
         JObj [("donorName", or_null (donorInfo !! "donorName"));
               ("donorEmail", or_null (donorInfo !! "donorEmail"))] ]}.

Definition patch_donate (req : request) (s : db) : db * response :=
  let donorInfo := body req in
  match route_id req with
  | None => (s, Response 500 (Message "Error updating request."))
  | Some i =>
      let '(c, updateResult) :=
        Store.updateOne (claimable i) (claim_fields donorInfo)
          (requestsCollection s) in
      if decide (modifiedCount updateResult = 0%nat)
      then (set_requests c s,
            Response 400
              (Message "Unable to confirm donation. It may have already been claimed."))
      else (set_requests c s,
            send (Message "Donation confirmed. Status set to inprogress."))
  end.

End FirstServer.

(** ** Routes *)

Section Server.

(** [admin.auth().verifyIdToken]: the identity provider's check of a
    token; [None] when it rejects it (expired, wrong signature, not a
    token at all). *)
Variable verifyIdToken : string → option claims.

Definition verifyFirebaseToken : middleware := λ req _,
  let authHeaders := authorization req in
  if negb (nonempty authHeaders)
  then Reply (Response 401 (Message "Unauthorized access"))
  else
    let token := split_on " " (default "" authHeaders) !! 1%nat in
    if negb (nonempty token)
    then Reply (Response 401 (Message "Unauthorized access."))
    else match verifyIdToken (default "" token) with
         | Some d => Next (set_decoded d req)
         | None => Reply (Response 403 (Message "Forbidden access."))
         end.

Definition my_donation_requests_route :=
  read_route [verifyFirebaseToken; verifyEmailQueryMatch]
    get_my_donation_requests.

Definition admin_users_route :=
  read_route [verifyFirebaseToken; verifyAdmin] get_admin_users.

Definition admin_donation_requests_route :=
  read_route [verifyFirebaseToken; verifyAdminVolunteer]
    get_admin_donation_requests.

Definition fundraiser_payments_route :=
  read_route [verifyFirebaseToken; verifyAdmin] get_fundraiser_payments.

(** The routes registered without any middleware. *)
Definition admin_user_update_route := route [] patch_admin_user.
Definition donate_route := route [] patch_donate.
Definition user_update_route := route [] put_user_update.
Definition blog_update_route (now : string) := route [] (patch_blog now).

End Server.

(** ** The other handlers of [index.js] *)

(** What these handlers send: the shapes above, and a few more. *)
Inductive content : Type :=
| Plain (x : payload)
| One (d : document)                          (* a stored document *)
| RoleOf (role : option json)                 (* { role: user.role } *)
| ModifiedFlag (modified : bool)              (* { modified } *)
| Raw (r : update_result)                     (* the driver's update result *)
| Deleted (deletedCount : nat)                (* the driver's delete result *)
| Saved (insertedId : N)                      (* { success: true, insertedId } *)
| Facets (statusBreakdown : list (json * nat)) (total : list nat)
| BlogStats (statusBreakdown : list (json * nat)) (total : option nat)
| Dashboard (totalUsers totalDonationRequests : nat) (totalFunds : Z).

Record answer := Answer { http_status : Z; shown : content }.

Definition refuse (res : response) : answer :=
  Answer (status res) (Plain (sent res)).

(** [app.get(path, ...ms, handler)] for these handlers. *)
Definition reading (ms : list middleware) (handler : request → db → answer)
    (req : request) (s : db) : answer :=
  match pass ms req s with
  | Next req' => handler req' s
  | Reply res => refuse res
  end.

(** [deleteOne(q)]: the first match is removed; returns [deletedCount]. *)
Definition deleteOne (q : selector) (c : list document) : list document * nat :=
  match list_find (matches q) c with
  | None => (c, 0%nat)
  | Some (i, _) => (delete i c, 1%nat)
  end.

(** [{ $group: { _id: "$status", count: { $sum: 1 } } }]: one group per
    distinct status, a missing status counting as null; groups are kept in
    the order in which their status first occurs. *)
Fixpoint count_in (k : json) (groups : list (json * nat)) : list (json * nat) :=
  match groups with
  | [] => [(k, 1%nat)]
  | (k', n) :: rest =>
      if decide (k = k') then (k', S n) :: rest else (k', n) :: count_in k rest
  end.

Definition tally (keys : list json) : list (json * nat) :=
  foldl (λ groups k, count_in k groups) [] keys.

Definition status_key (d : document) : json := or_null (doc_fields d !! "status").

Definition group_by_status (c : list document) : list (json * nat) :=
  tally (status_key <$> c).

(** Count recorded for a status in a breakdown (0 when it has no group). *)
Fixpoint group_count (k : json) (groups : list (json * nat)) : nat :=
  match groups with
  | [] => 0%nat
  | (k', n) :: rest => if decide (k = k') then n else group_count k rest
  end.


Definition set_payments (c : list document) (s : db) : db :=
  Db (usersCollection s) (requestsCollection s) (blogsCollection s) c.

(** [PATCH /users/:email/last-login] *)
Definition patch_last_login (now : string) (req : request) (s : db)
  : db * answer :=
  let '(c, result) :=
    Store.updateOne (with_field "email" (text (params req !! "email")))
      {[ "loginAt" := JStr now ]} (usersCollection s) in
  (set_users c s,
   Answer 200 (ModifiedFlag (bool_decide (0 < modifiedCount result)%nat))).





(** [GET /donation-requests] *)
Definition get_donation_requests (req : request) (s : db) : answer :=
  let status := query req !! "status" in
  let q := if nonempty status then with_field "status" (text status)
           else everything in
  Answer 200 (Plain (Many (Store.find q (requestsCollection s)))).

(** [GET /donation-requests/:id] *)
Definition get_donation_request (req : request) (s : db) : answer :=
  match route_id req with
  | None => Answer 500 (Plain (Message "Error retrieving request."))
  | Some i =>
      match Store.findOne (with_id i) (requestsCollection s) with
      | None => Answer 404 (Plain (Message "Donation request not found."))
      | Some request => Answer 200 (One request)
      end
  end.


(** [DELETE /donation-requests/:id]; [ObjectId.isValid(id)] holds when
    [new ObjectId(id)] does not throw. *)
Definition delete_donation_request (req : request) (s : db) : db * answer :=
  match route_id req with
  | None => (s, Answer 400 (Plain (Message "Invalid ID format")))
  | Some i =>
      let '(c, deletedCount) := deleteOne (with_id i) (requestsCollection s) in
      if decide (deletedCount = 0%nat)
      then (set_requests c s,
            Answer 404 (Plain (Message "Donation request not found")))
      else (set_requests c s,
            Answer 200 (Plain (Message "Donation request deleted successfully")))
  end.

(** [GET /request-status-count]: the [$facet] of the caller's requests.
    The [total] facet is [[{ $count: "total" }]]: it has no element when
    nothing matches. *)
Definition get_request_status_count (req : request) (s : db) : answer :=
  let email := query req !! "email" in
  let matched :=
    Store.find (with_field "requesterEmail" (text email)) (requestsCollection s) in
  Answer 200
    (Facets (group_by_status matched)
       (if decide (matched = []) then [] else [length matched])).


(** [POST /blogs] *)
Definition post_blogs (now : string) (req : request) (s : db) : db * response :=
  let blog := body req in
  let blog := <["createdAt" := JStr now]> blog in
  let blog := <["status" := JStr "draft"]> blog in
  let '(c, i) := Store.insertOne blog (blogsCollection s) in
  (set_blogs c s, Response 201 (Inserted i "Blog has been added successfully.")).

(** The filter of [GET /blogs]: [role] and [status] come from the query
    string. *)
Definition blogs_filter (role status : option string) : selector :=
  if bool_decide (role = Some "admin") || bool_decide (role = Some "volunteer")
  then (if nonempty status then with_field "status" (text status) else everything)
  else with_field "status" (JStr "published").

(** [GET /blogs] *)
Definition get_blogs (req : request) (s : db) : answer :=
  let filter := blogs_filter (query req !! "role") (query req !! "status") in
  Answer 200
    (Plain (Many (sort_desc "createdAt" (Store.find filter (blogsCollection s))))).

(** [DELETE /blogs/:id] *)
Definition delete_blog (req : request) (s : db) : db * answer :=
  match route_id req with
  | None => (s, Answer 500 (Plain (Failure "Failed to delete blog.")))
  | Some i =>
      let '(c, deletedCount) := deleteOne (with_id i) (blogsCollection s) in
      (set_blogs c s, Answer 200 (Deleted deletedCount))
  end.

(** [GET /blogs/stats]; [$arrayElemAt] of an empty [total] facet leaves
    [total] out. *)
Definition get_blogs_stats (req : request) (s : db) : answer :=
  let blogs := blogsCollection s in
  Answer 200
    (BlogStats (group_by_status blogs)
       (if decide (blogs = []) then None else Some (length blogs))).

(** [GET /blogs/:id] *)
Definition get_blog (req : request) (s : db) : answer :=
  match route_id req with
  | None => Answer 500 (Plain (Failure "Failed to fetch blog."))
  | Some i =>
      match Store.findOne (with_id i) (blogsCollection s) with
      | None => Answer 404 (Plain (Failure "Blog not found."))
      | Some blog => Answer 200 (One blog)
      end
  end.

(** [POST /api/save-payment] *)
Definition post_save_payment (now : string) (req : request) (s : db)
  : db * answer :=
  let paymentIntentId := body req !! "paymentIntentId" in
  let amount := body req !! "amount" in
  let email := body req !! "email" in
  if negb (truthy paymentIntentId) || negb (truthy amount) || negb (truthy email)
  then (s, Answer 400 (Plain (Message "Missing payment details")))
  else
    let paymentData : gmap string json :=
      <["paymentIntentId" := or_null paymentIntentId]>
        (<["email" := or_null email]>
           (<["amount" := or_null amount]>
              (<["paidAt" := JStr now]> {[ "status" := JStr "completed" ]}))) in
    let '(c, i) := Store.insertOne paymentData (paymentsCollection s) in
    (set_payments c s, Answer 200 (Saved i)).

(** *** The blog handlers of the first server *)

Module FirstServerBlogs.

(** [POST /blogs] *)
Definition post_blogs (now : string) (req : request) (s : db) : db * response :=
  let blog := body req in
  let blog := <["createdAt" := JStr now]> blog in
  let blog := <["status" := JStr "published"]> blog in
  let '(c, i) := Store.insertOne blog (blogsCollection s) in
  (set_blogs c s, Response 201 (Inserted i "Blog has been added successfully.")).

(** [GET /blogs] *)
Definition get_blogs (req : request) (s : db) : answer :=
  Answer 200
    (Plain (Many (Store.find (with_field "status" (JStr "published"))
                    (blogsCollection s)))).

End FirstServerBlogs.

Section GuardedReads.

Variable verifyIdToken : string → option claims.


Definition request_status_count_route :=
  reading [verifyFirebaseToken verifyIdToken; verifyEmailQueryMatch]
    get_request_status_count.


Definition blogs_stats_route :=
  reading [verifyFirebaseToken verifyIdToken] get_blogs_stats.

Definition blog_route := reading [verifyFirebaseToken verifyIdToken] get_blog.

End GuardedReads.


(** ** Sequences of operations on the request store of the first server *)

Inductive request_op : Type :=
| Create (now : string) (req : request)    (* POST /donation-requests *)
| Claim (req : request).                   (* PATCH /donation-requests/:id/donate *)

Definition apply_first (s : db) (o : request_op) : db :=
  match o with
  | Create now req => (post_donation_requests now req s).1
  | Claim req => (FirstServer.patch_donate req s).1
  end.

Definition run_first (ops : list request_op) (s : db) : db :=
  foldl apply_first s ops.

(** ** Sample data *)

Module Sample.

Definition oid1 : string := "000000000000000000000001".

Definition asha : document :=
  Doc 1 {[ "email" := JStr "asha@example.org"; "name" := JStr "Asha";
           "role" := JStr "donor"; "status" := JStr "active" ]}.

Definition root : document :=
  Doc 2 {[ "email" := JStr "root@example.org"; "name" := JStr "Root";
           "role" := JStr "admin"; "status" := JStr "active" ]}.

Definition draft : document :=
  Doc 1 {[ "title" := JStr "Why donate"; "status" := JStr "draft";
           "updatedAt" := JStr "2024-05-01T08:00:00.000Z" ]}.

Definition canceled : document :=
  Doc 1 {[ "requesterEmail" := JStr "rina@example.org";
           "status" := JStr "canceled" ]}.

Definition store0 : db := Db [asha; root] [canceled] [draft] [].

Definition empty_db : db := Db [] [] [] [].

(** A provider that knows two tokens. *)
Definition provider (token : string) : option claims :=
  if String.eqb token "asha-token" then Some (Claims (Some "asha@example.org"))
  else if String.eqb token "root-token" then Some (Claims (Some "root@example.org"))
  else None.

Definition anonymous (ps : gmap string string) (b : gmap string json)
  : request := Request None ps ∅ b None.


Definition empty_update : request :=
  anonymous {[ "email" := "asha@example.org" ]} ∅.

Definition empty_update_unknown : request :=
  anonymous {[ "email" := "nobody@example.org" ]} ∅.


Definition new_request : request :=
  anonymous ∅ {[ "requesterEmail" := JStr "rina@example.org";
                 "bloodGroup" := JStr "O+" ]}.

Definition claim_by (name mail : string) : request :=
  anonymous {[ "id" := oid1 ]}
    {[ "status" := JStr "inprogress"; "donorName" := JStr name;
       "donorEmail" := JStr mail ]}.

Definition donor (name mail : string) : json :=
  JObj [("name", JStr name); ("email", JStr mail)].

(** Nobody in particular asks for Asha to become an admin. *)
Definition make_admin : request :=
  anonymous {[ "id" := oid1 ]} {[ "role" := JStr "admin" ]}.

Definition with_bearer (h : string) (q : gmap string string) : request :=
  Request (Some h) ∅ q ∅ None.

(** Twelve requests of Rina, one a day, oldest first, and one of Asha
    in between. *)
Definition request_on (i : N) (mail day : string) : document :=
  Doc i {[ "requesterEmail" := JStr mail; "status" := JStr "pending";
           "createdAt" := JStr ("2024-05-" ++ day ++ "T08:00:00.000Z") ]}.

Definition rina (i : N) (day : string) : document :=
  request_on i "rina@example.org" day.

Definition twelve : db :=
  Db [asha; root]
     [rina 1 "01"; rina 2 "02"; rina 3 "03"; rina 4 "04";
      request_on 5 "asha@example.org" "04";
      rina 6 "05"; rina 7 "06"; rina 8 "07"; rina 9 "08"; rina 10 "09";
      rina 11 "10"; rina 12 "11"; rina 13 "12"]
     [] [].

Definition page_two : request :=
  Request None ∅
    {[ "email" := "rina@example.org"; "page" := "2"; "limit" := "5" ]}
    ∅ (Some (Claims (Some "rina@example.org"))).

(** Three accounts, one of them blocked; pages of one, blocked only. *)
Definition blocked : document :=
  Doc 3 {[ "email" := JStr "bo@example.org"; "role" := JStr "donor";
           "status" := JStr "blocked" ]}.

Definition three_users : db := Db [asha; root; blocked] [canceled] [] [].

Definition blocked_only : request :=
  Request None ∅ {[ "status" := "blocked"; "limit" := "1" ]} ∅
    (Some (Claims (Some "root@example.org"))).

Definition done_only : request :=
  Request None ∅ {[ "status" := "done"; "limit" := "1" ]} ∅
    (Some (Claims (Some "root@example.org"))).

End Sample.

(** ** More sample data *)

Module Fixture.

Definition bo : document :=
  Doc 3 {[ "email" := JStr "bo@example.org"; "role" := JStr "donor";
           "status" := JStr "active"; "bloodGroup" := JStr "O+";
           "district" := JStr "Dhaka"; "upazila" := JStr "Savar" ]}.

Definition cy : document :=
  Doc 4 {[ "email" := JStr "cy@example.org"; "role" := JStr "volunteer";
           "status" := JStr "active"; "bloodGroup" := JStr "O+";
           "district" := JStr "Dhaka"; "upazila" := JStr "Savar" ]}.

Definition published : document :=
  Doc 2 {[ "title" := JStr "Camp on Friday"; "status" := JStr "published";
           "createdAt" := JStr "2024-04-01T08:00:00.000Z" ]}.

Definition gift (i : N) (n : Z) : document :=
  Doc i {[ "email" := JStr "bo@example.org"; "amount" := JNum n;
           "status" := JStr "completed" ]}.

Definition finished : document :=
  Doc 2 {[ "requesterEmail" := JStr "rina@example.org"; "status" := JStr "done";
           "createdAt" := JStr "2024-04-20T08:00:00.000Z" ]}.

Definition town : db :=
  Db [Sample.asha; Sample.root; bo; cy]
     [Sample.rina 1 "01"; finished]
     [Sample.draft; published]
     [gift 1 10; gift 2 20].



Definition oid (n : string) : string :=
  ("00000000000000000000000" ++ n)%string.

Definition on_id (n : string) (b : gmap string json) : request :=
  Request None {[ "id" := oid n ]} ∅ b None.


Definition bearer (token : string) (q : gmap string string) : request :=
  Request (Some ("Bearer " ++ token)%string) ∅ q ∅ None.




End Fixture.

(** * Properties *)

(** ** The store *)

Lemma db_eta (s : db) :
  Db (usersCollection s) (requestsCollection s) (blogsCollection s)
     (paymentsCollection s) = s.
Proof. by destruct s. Qed.

Lemma set_fields_empty (d : document) : Store.set_fields ∅ d = d.
Proof. destruct d as [i f]. unfold Store.set_fields. simpl. by rewrite (left_id_L ∅ (∪)). Qed.

Lemma set_fields_lookup (patch : gmap string json) (d : document) (k : string) :
  doc_fields (Store.set_fields patch d) !! k
  = match patch !! k with Some v => Some v | None => doc_fields d !! k end.
Proof.
  unfold Store.set_fields. simpl. rewrite lookup_union.
  destruct (patch !! k), (doc_fields d !! k); done.
Qed.

Lemma updateOne_found q patch (c : list document) i d :
  list_find (matches q) c = Some (i, d) →
  Store.updateOne q patch c
  = (<[i := Store.set_fields patch d]> c,
     Updated 1 (if decide (Store.set_fields patch d = d) then 0 else 1)).
Proof. intros H. unfold Store.updateOne. by rewrite H. Qed.

Lemma updateOne_missing q patch (c : list document) :
  list_find (matches q) c = None →
  Store.updateOne q patch c = (c, Updated 0 0).
Proof. intros H. unfold Store.updateOne. by rewrite H. Qed.

(** An empty [$set] changes nothing and modifies nothing. *)
Lemma updateOne_empty q (c : list document) :
  (Store.updateOne q ∅ c).1 = c ∧ modifiedCount (Store.updateOne q ∅ c).2 = 0%nat.
Proof.
  unfold Store.updateOne. destruct (list_find _ c) as [[i d]|] eqn:E; [|done].
  simpl. rewrite set_fields_empty. split.
  - apply list_insert_id. by apply list_find_Some in E as (? & _).
  - by rewrite decide_True.
Qed.

Lemma insertOne_last fields (c : list document) :
  (Store.insertOne fields c).1 = c ++ [Doc (Store.fresh_id c) fields].
Proof. done. Qed.

(** ** Creation assigns the server's fields *)


(** ** The profile update *)


(** C7, as the code has it.  With an empty body [PUT /user/update/:email]
    leaves the store as it was and answers 404 "User not found or no
    changes made", whether or not the account exists. *)
Theorem empty_profile_update (req : request) (s : db) :
  body req = ∅ →
  put_user_update req s
  = (s, Response 404 (Message "User not found or no changes made")).
Proof.
  intros Hb. unfold put_user_update. rewrite Hb.
  pose proof (updateOne_empty (account_of req) (usersCollection s)) as [Hc Hm].
  destruct (Store.updateOne _ ∅ (usersCollection s)) as [c r]. simpl in *.
  subst c. rewrite Hm. rewrite decide_False by lia.
  unfold set_users. by rewrite db_eta.
Qed.


Lemma empty_profile_update_witness :
  body Sample.empty_update = ∅
  ∧ put_user_update Sample.empty_update Sample.store0
    = (Sample.store0,
       Response 404 (Message "User not found or no changes made")).
Proof.
  split; [reflexivity|].
  apply (empty_profile_update Sample.empty_update Sample.store0). reflexivity.
Defined.

(** C7 as stated fails: the empty patch of an existing account is
    answered with the 404 that an unknown email gets, not accepted. *)
Lemma existing_account_empty_patch_is_404 :
  is_Some (Store.findOne (account_of Sample.empty_update)
             (usersCollection Sample.store0))
  ∧ body Sample.empty_update = ∅
  ∧ status (put_user_update Sample.empty_update Sample.store0).2 = 404
  ∧ (put_user_update Sample.empty_update Sample.store0).2
    = (put_user_update Sample.empty_update_unknown Sample.store0).2.
Proof. split_and!; [by eexists|reflexivity|vm_compute; reflexivity..]. Qed.

(** ** The blog update *)

Lemma status_changed_strings (patch : gmap string json) (blog : document) a b :
  patch !! "status" = Some (JStr a) →
  doc_fields blog !! "status" = Some (JStr b) →
  status_changed patch blog = true ↔ a ≠ b.
Proof.
  intros Hp Hb. unfold status_changed. rewrite Hp, Hb. simpl.
  rewrite negb_true_iff. destruct (String.eqb_spec a b); split; congruence.
Qed.

Lemma status_unchanged_without_status (patch : gmap string json) blog :
  patch !! "status" = None → status_changed patch blog = false.
Proof. intros Hp. unfold status_changed. by rewrite Hp. Qed.




(** ** The identity gate *)

(** C3, as the code has it.  [verifyFirebaseToken] answers 401 exactly
    when the Authorization header is missing or empty, or has no non-empty
    second part after a space; a token the provider rejects is answered
    403; a token it accepts lets the request through with its claims. *)
Theorem identity_gate_answers
    (verifyIdToken : string → option claims) (req : request) (s : db) :
  let token := split_on " " (default "" (authorization req)) !! 1%nat in
  match verifyFirebaseToken verifyIdToken req s with
  | Reply res =>
      (status res = 401
       ∧ (nonempty (authorization req) = false ∨ nonempty token = false))
      ∨ (status res = 403
         ∧ nonempty (authorization req) = true
         ∧ ∃ t, token = Some t ∧ t ≠ "" ∧ verifyIdToken t = None)
  | Next req' =>
      nonempty (authorization req) = true
      ∧ ∃ t d, token = Some t ∧ t ≠ "" ∧ verifyIdToken t = Some d
               ∧ req' = set_decoded d req
  end.
Proof.
  intros token. unfold verifyFirebaseToken. fold token.
  destruct (nonempty (authorization req)) eqn:Ha; simpl; [|left; auto].
  destruct (nonempty token) eqn:Ht; simpl; [|left; auto].
  destruct token as [t|] eqn:Et; [|done]. simpl in *.
  assert (t ≠ "") by (intros ->; done).
  destruct (verifyIdToken t) as [d|] eqn:Ev.
  - split; [done|]. by exists t, d.
  - right. split_and!; [done..|]. by exists t.
Qed.

(** C3 as stated fails: a well-formed bearer token that the provider
    rejects is answered 403, not 401. *)
Lemma rejected_token_is_answered_403 :
  Sample.provider "expired-token" = None
  ∧ verifyFirebaseToken Sample.provider
      (Sample.with_bearer "Bearer expired-token" ∅) Sample.store0
    = Reply (Response 403 (Message "Forbidden access.")).
Proof. split; reflexivity. Qed.

(** ** The admin guard *)

Lemma strict_neq_string (a : string) (v : option json) :
  strict_neq (JStr a) v = false ↔ v = Some (JStr a).
Proof.
  destruct v as [[]|]; simpl; try (split; [discriminate|congruence]).
  rewrite negb_false_iff, String.eqb_eq. split; congruence.
Qed.

(** [verifyAdmin] lets a request through exactly when the first account
    with the caller's email has role admin; every other caller, known or
    not, is answered 403. *)
Lemma verifyAdmin_passes (req : request) (s : db) (d : claims) :
  decoded req = Some d →
  let account := Store.findOne (with_field "email" (text (email d)))
                   (usersCollection s) in
  (verifyAdmin req s = Next req
   ↔ ∃ u, account = Some u ∧ doc_fields u !! "role" = Some (JStr "admin"))
  ∧ (verifyAdmin req s = Next req ∨ verifyAdmin req s = Reply forbidden).
Proof.
  intros Hd account. unfold verifyAdmin. rewrite Hd. fold account.
  destruct account as [u|]; [|split; [split; [done|by intros (? & ? & _)]|by right]].
  destruct (strict_neq _ _) eqn:E.
  - split; [|by right]. split; [done|]. intros (u' & [= <-] & Hr).
    apply strict_neq_string in Hr. congruence.
  - split; [|by left]. split; [|done]. intros _. exists u.
    split; [done|]. by apply strict_neq_string.
Qed.

(** X20.  The two admin listings behind [verifyFirebaseToken] and
    [verifyAdmin]: a verified caller who is not an admin gets 403 and no
    data. *)
Lemma admin_listings_refuse (verifyIdToken : string → option claims)
    (req req' : request) (s : db) :
  verifyFirebaseToken verifyIdToken req s = Next req' →
  verifyAdmin req' s ≠ Next req' →
  admin_users_route verifyIdToken req s = Some forbidden
  ∧ fundraiser_payments_route verifyIdToken req s = Some forbidden.
Proof.
  intros Hgate Hno.
  assert (Hd : ∃ d, decoded req' = Some d).
  { unfold verifyFirebaseToken in Hgate.
    repeat (case_match; try discriminate). injection Hgate as <-. by eexists. }
  destruct Hd as [d Hd].
  destruct (verifyAdmin_passes req' s d Hd) as [_ [H|H]]; [done|].
  unfold admin_users_route, fundraiser_payments_route, read_route. simpl.
  by rewrite Hgate, H.
Qed.

Lemma admin_listings_serve (verifyIdToken : string → option claims)
    (req req' : request) (s : db) :
  verifyFirebaseToken verifyIdToken req s = Next req' →
  verifyAdmin req' s = Next req' →
  admin_users_route verifyIdToken req s = get_admin_users req' s
  ∧ fundraiser_payments_route verifyIdToken req s
    = Some (send (Many (sort_desc "paidAt" (paymentsCollection s)))).
Proof.
  intros Hgate Hok.
  unfold admin_users_route, fundraiser_payments_route, read_route. simpl.
  by rewrite Hgate, Hok.
Qed.

(** [PATCH /admin/users/:id] is registered without a guard: its answer
    does not depend on who calls. *)
Lemma admin_update_ignores_caller (req : request) (s : db) a d :
  admin_user_update_route
    (Request a (params req) (query req) (body req) d) s
  = admin_user_update_route req s.
Proof. reflexivity. Qed.

(** The listing of accounts on the sample store: Asha, a donor, is
    refused; Root, an admin, is served. *)
Lemma admin_listing_on_sample :
  admin_users_route Sample.provider
    (Sample.with_bearer "Bearer asha-token" ∅) Sample.store0 = Some forbidden
  ∧ admin_users_route Sample.provider
      (Sample.with_bearer "Bearer root-token" ∅) Sample.store0
    = Some (send (UsersPage [Sample.asha; Sample.root] 1 2)).
Proof. vm_compute. split; reflexivity. Qed.

(** The routes registered without middleware are their handlers. *)
Lemma unguarded_routes (now : string) :
  admin_user_update_route = patch_admin_user
  ∧ donate_route = patch_donate
  ∧ user_update_route = put_user_update
  ∧ blog_update_route now = patch_blog now.
Proof. done. Qed.

(** C4 fails on [PATCH /admin/users/:id]: a caller with no credential at
    all turns the donor Asha into an admin and is answered 200. *)
Theorem admin_update_is_unguarded :
  let out := admin_user_update_route Sample.make_admin Sample.store0 in
  authorization Sample.make_admin = None
  ∧ decoded Sample.make_admin = None
  ∧ doc_fields Sample.asha !! "role" = Some (JStr "donor")
  ∧ out.2 = send (Modified "User updated successfully." 1)
  ∧ (λ u, doc_fields u !! "role") <$> usersCollection out.1 !! 0%nat
    = Some (Some (JStr "admin")).
Proof. vm_compute. split_and!; reflexivity. Qed.

(** ** Claiming a donation request *)

(** *** The first server: a claim is a compare-and-set on pending *)

Lemma matches_claimable (i : N) (d : document) :
  matches (FirstServer.claimable i) d
  ↔ doc_id d = i ∧ doc_fields d !! "status" = Some (JStr "pending").
Proof.
  unfold matches, FirstServer.claimable. simpl.
  rewrite map_Forall_singleton. unfold or_null.
  destruct (doc_fields d !! "status") as [v|]; simpl.
  - split; intros [? ?]; split; congruence.
  - split; intros [? ?]; discriminate.
Qed.

Lemma claim_fields_change (b : gmap string json) (d : document) :
  doc_fields d !! "status" = Some (JStr "pending") →
  Store.set_fields (FirstServer.claim_fields b) d ≠ d.
Proof.
  intros Hp Heq.
  assert (H : doc_fields (Store.set_fields (FirstServer.claim_fields b) d)
              !! "status" = Some (JStr "inprogress")).
  { rewrite set_fields_lookup. unfold FirstServer.claim_fields.
    by rewrite lookup_insert_eq. }
  rewrite Heq, Hp in H. discriminate.
Qed.

(** A claim on a request that is still pending wins: the request becomes
    inprogress with the caller's donor record, and the answer is 200. *)
Lemma first_claim_wins (req : request) (s : db) i n d :
  route_id req = Some i →
  list_find (matches (FirstServer.claimable i)) (requestsCollection s)
  = Some (n, d) →
  FirstServer.patch_donate req s
  = (set_requests
       (<[n := Store.set_fields (FirstServer.claim_fields (body req)) d]>
          (requestsCollection s)) s,
     send (Message "Donation confirmed. Status set to inprogress.")).
Proof.
  intros Hid Hfind. unfold FirstServer.patch_donate. rewrite Hid.
  rewrite (updateOne_found _ _ _ _ _ Hfind). simpl.
  rewrite (decide_False (P := Store.set_fields _ d = d)); [done|].
  apply claim_fields_change.
  apply list_find_Some in Hfind as (_ & Hm & _).
  by apply matches_claimable in Hm as [_ Hm].
Qed.

(** A claim that finds no pending request with that id loses: 400, and
    the store is as before. *)
Lemma first_claim_loses (req : request) (s : db) i :
  route_id req = Some i →
  list_find (matches (FirstServer.claimable i)) (requestsCollection s) = None →
  FirstServer.patch_donate req s
  = (s, Response 400
          (Message "Unable to confirm donation. It may have already been claimed.")).
Proof.
  intros Hid Hfind. unfold FirstServer.patch_donate. rewrite Hid.
  rewrite (updateOne_missing _ _ _ Hfind). simpl.
  unfold set_requests. by rewrite db_eta.
Qed.

(** A request that has left pending is out of reach of every later claim. *)
Lemma first_claim_keeps_accepted (req : request) (s : db) n d :
  requestsCollection s !! n = Some d →
  doc_fields d !! "status" ≠ Some (JStr "pending") →
  requestsCollection (FirstServer.patch_donate req s).1 !! n = Some d.
Proof.
  intros Hn Hs. unfold FirstServer.patch_donate.
  destruct (route_id req) as [i|]; [|done].
  destruct (list_find (matches (FirstServer.claimable i)) (requestsCollection s))
    as [[m d0]|] eqn:Hfind.
  - rewrite (updateOne_found _ _ _ _ _ Hfind). simpl.
    assert (m ≠ n).
    { intros ->. apply list_find_Some in Hfind as (Hl & Hm & _).
      apply matches_claimable in Hm as [_ Hm]. congruence. }
    case_decide; simpl; by rewrite list_lookup_insert_ne.
  - rewrite (updateOne_missing _ _ _ Hfind). simpl. done.
Qed.

Lemma create_keeps_requests (now : string) (req : request) (s : db) n d :
  requestsCollection s !! n = Some d →
  requestsCollection (post_donation_requests now req s).1 !! n = Some d.
Proof. intros Hn. simpl. by apply lookup_app_l_Some. Qed.

(** X19.  Over every sequence of creations and claims of the first
    server, a request that has left pending keeps the donor record it
    has. *)
Lemma first_server_keeps_accepted_donor (ops : list request_op) (s : db) n d :
  requestsCollection s !! n = Some d →
  doc_fields d !! "status" ≠ Some (JStr "pending") →
  requestsCollection (run_first ops s) !! n = Some d.
Proof.
  revert s. induction ops as [|o ops IH]; intros s Hn Hs; [done|].
  simpl. apply IH; [|done].
  destruct o as [now req|req]; simpl.
  - by apply create_keeps_requests.
  - by apply first_claim_keeps_accepted.
Qed.

(** *** The running server: the claim is an unconditional [$set] *)

(** C1 fails on [index.js]: after Asha's claim has taken the request out
    of pending, Badal's claim is answered 200 and puts his donor record in
    her place. *)
Theorem second_claim_replaces_donor :
  let s1 := (post_donation_requests "2024-05-01T08:00:00.000Z"
               Sample.new_request Sample.empty_db).1 in
  let first := donate_route (Sample.claim_by "Asha" "asha@example.org") s1 in
  let second := donate_route (Sample.claim_by "Badal" "badal@example.org") first.1 in
  (λ r, doc_fields r !! "status") <$> requestsCollection s1 !! 0%nat
  = Some (Some (JStr "pending"))
  ∧ status first.2 = 200
  ∧ (λ r, (doc_fields r !! "status", doc_fields r !! "donor"))
      <$> requestsCollection first.1 !! 0%nat
    = Some (Some (JStr "inprogress"),
            Some (Sample.donor "Asha" "asha@example.org"))
  ∧ status second.2 = 200
  ∧ (λ r, (doc_fields r !! "status", doc_fields r !! "donor"))
      <$> requestsCollection second.1 !! 0%nat
    = Some (Some (JStr "inprogress"),
            Some (Sample.donor "Badal" "badal@example.org")).
Proof. vm_compute. split_and!; reflexivity. Qed.

(** C2 fails on [index.js]: a claim on a canceled request matches no
    pending document, yet it is answered 200, the request becomes
    inprogress and takes the caller's donor record. *)
Theorem claim_on_canceled_request_succeeds :
  let req := Sample.claim_by "Badal" "badal@example.org" in
  let out := donate_route req Sample.store0 in
  route_id req = Some 1%N
  ∧ Store.find (FirstServer.claimable 1) (requestsCollection Sample.store0) = []
  ∧ out.2 = send (Message "Donation request updated successfully.")
  ∧ (λ r, (doc_fields r !! "status", doc_fields r !! "donor"))
      <$> requestsCollection out.1 !! 0%nat
    = Some (Some (JStr "inprogress"),
            Some (Sample.donor "Badal" "badal@example.org"))
  ∧ FirstServer.patch_donate req Sample.store0
    = (Sample.store0,
       Response 400
         (Message "Unable to confirm donation. It may have already been claimed.")).
Proof. vm_compute. split_and!; reflexivity. Qed.

(** ** Listings *)

Lemma lex_le_total (a b : list Z) : lex_le a b = true ∨ lex_le b a = true.
Proof.
  revert b. induction a as [|x a IH]; intros [|y b]; simpl; auto.
  destruct (Z.ltb_spec x y); [by left|].
  destruct (Z.ltb_spec y x); [by right|].
  assert (x = y) as -> by lia. rewrite Z.eqb_refl. simpl. apply IH.
Qed.

Lemma lex_le_trans (a b c : list Z) :
  lex_le a b = true → lex_le b c = true → lex_le a c = true.
Proof.
  revert b c. induction a as [|x a IH]; intros [|y b] [|z c]; simpl; try done.
  rewrite !orb_true_iff, !andb_true_iff, !Z.ltb_lt, !Z.eqb_eq.
  intros [?|[-> ?]] [?|[-> ?]]; eauto with lia.
Qed.

#[global] Instance not_older_total k : Total (not_older k).
Proof. intros d1 d2. unfold not_older. destruct (lex_le_total
  (sort_key (doc_fields d2 !! k)) (sort_key (doc_fields d1 !! k))); auto. Qed.

#[global] Instance not_older_trans k : Transitive (not_older k).
Proof. intros d1 d2 d3 H12 H23. unfold not_older in *. by eapply lex_le_trans. Qed.




Lemma ceil_div_mono (a b size : Z) :
  1 ≤ size → a ≤ b → ceil_div a size ≤ ceil_div b size.
Proof. intros Hs Hab. unfold ceil_div. apply Z.div_le_mono; lia. Qed.

Lemma matches_everything (d : document) : matches everything d.
Proof. split; [done|]. apply map_Forall_empty. Qed.

Lemma find_everything (c : list document) : Store.find everything c = c.
Proof.
  unfold Store.find. induction c as [|d c IH]; [done|].
  rewrite filter_cons_True by apply matches_everything. by rewrite IH.
Qed.

Lemma count_everything (c : list document) :
  Store.countDocuments everything c = length c.
Proof. unfold Store.countDocuments. by rewrite find_everything. Qed.

Lemma find_length_le q (c : list document) :
  (length (Store.find q c) ≤ length c)%nat.
Proof. apply length_filter. Qed.

(** What [requests_of] selects when the caller's email is given. *)
Lemma matches_requests_of (e : string) (st : option string) (d : document) :
  matches (requests_of (Some e) st) d
  ↔ doc_fields d !! "requesterEmail" = Some (JStr e)
    ∧ (nonempty st = true → doc_fields d !! "status" = JStr <$> st).
Proof.
  assert (Hor : ∀ (o : option json) (t : string),
            default JNull o = JStr t ↔ o = Some (JStr t)).
  { intros [v|] t; simpl; split; congruence. }
  unfold matches, requests_of, put_if, text, or_null. simpl.
  destruct (nonempty st) eqn:Hst.
  - destruct st as [t|]; [|done]. simpl.
    rewrite map_Forall_insert by done. rewrite map_Forall_singleton, !Hor.
    intuition auto.
  - rewrite map_Forall_singleton, Hor. intuition discriminate.
Qed.



(** Page 2 of 5 over Rina's twelve requests: the sixth to the tenth
    newest, and three pages in all. *)
Lemma page_two_of_twelve :
  get_my_donation_requests Sample.page_two Sample.twelve
  = Some (send (Page [Sample.rina 8 "07"; Sample.rina 7 "06";
                      Sample.rina 6 "05"; Sample.rina 4 "04";
                      Sample.rina 3 "03"] 3)).
Proof. vm_compute. reflexivity. Qed.

(** The same through the route: Rina's token and her own email. *)
Lemma page_two_of_twelve_route :
  my_donation_requests_route (λ _, Some (Claims (Some "rina@example.org")))
    (Request (Some "Bearer rina-token") ∅ (query Sample.page_two) ∅ None)
    Sample.twelve
  = get_my_donation_requests Sample.page_two Sample.twelve.
Proof. vm_compute. reflexivity. Qed.

(** C10.  In [GET /admin/users] and [GET /admin/donation-requests] the
    items come from the documents matching the status filter, while
    [totalPages] is computed from the count of the whole collection,
    whatever the filter; it is never below the number of pages the
    filtered documents fill, and it can be above it: with three accounts,
    one blocked, and pages of one, the blocked listing has one page of
    results and [totalPages] 3; the listing of done requests over a
    collection whose only request is canceled is empty with
    [totalPages] 1. *)
Theorem admin_total_pages_ignore_filter
    (req : request) (s : db) (page parsedLimit limit : Z) :
  int_param 1 (query req !! "page") = Some page →
  int_param 10 (query req !! "limit") = Some parsedLimit →
  num_param 10 (query req !! "limit") = Some limit →
  1 ≤ page → 1 ≤ parsedLimit → 1 ≤ limit →
  let filter := status_filter (query req !! "status") in
  let window (c : list document) :=
    take (Z.to_nat parsedLimit)
      (drop (Z.to_nat ((page - 1) * parsedLimit)) (Store.find filter c)) in
  let pages (n : nat) := ceil_div (Z.of_nat n) limit in
  get_admin_users req s
  = Some (send (UsersPage (window (usersCollection s))
                  (pages (length (usersCollection s)))
                  (length (usersCollection s))))
  ∧ get_admin_donation_requests req s
    = Some (send (Page (window (requestsCollection s))
                    (pages (length (requestsCollection s)))))
  ∧ pages (length (Store.find filter (usersCollection s)))
    ≤ pages (length (usersCollection s))
  ∧ pages (length (Store.find filter (requestsCollection s)))
    ≤ pages (length (requestsCollection s))
  ∧ (get_admin_users Sample.blocked_only Sample.three_users
     = Some (send (UsersPage [Sample.blocked] 3 3))
     ∧ ceil_div
         (Z.of_nat (length (Store.find (status_filter (Some "blocked"))
                              (usersCollection Sample.three_users)))) 1 = 1
     ∧ get_admin_donation_requests Sample.done_only Sample.three_users
       = Some (send (Page [] 1))).
Proof.
  intros Hp Hl Hn Hp1 Hl1 Hn1 filter window pages.
  assert (Hpage : ∀ c, admin_page c req
                       = Some (window c, pages (length c), length c)).
  { intros c. unfold admin_page. rewrite Hp, Hl, Hn.
    assert ((1 <=? page) && (1 <=? parsedLimit) && (1 <=? limit) = true) as ->
      by (rewrite !andb_true_iff; split_and!; by apply Z.leb_le).
    by rewrite count_everything. }
  split_and!.
  - unfold get_admin_users. by rewrite Hpage.
  - unfold get_admin_donation_requests. by rewrite Hpage.
  - apply ceil_div_mono; [done|]. apply inj_le, find_length_le.
  - apply ceil_div_mono; [done|]. apply inj_le, find_length_le.
  - vm_compute. reflexivity.
  - vm_compute. reflexivity.
  - vm_compute. reflexivity.
Qed.

Lemma admin_total_pages_ignore_filter_witness :
  int_param 1 (query Sample.blocked_only !! "page") = Some 1
  ∧ int_param 10 (query Sample.blocked_only !! "limit") = Some 1
  ∧ num_param 10 (query Sample.blocked_only !! "limit") = Some 1
  ∧ get_admin_users Sample.blocked_only Sample.three_users
    = Some (send (UsersPage
                    (take 1 (drop 0 (Store.find (status_filter (Some "blocked"))
                                       (usersCollection Sample.three_users))))
                    (ceil_div 3 1) 3)).
Proof.
  assert (H1 : int_param 1 (query Sample.blocked_only !! "page") = Some 1)
    by (vm_compute; reflexivity).
  assert (H2 : int_param 10 (query Sample.blocked_only !! "limit") = Some 1)
    by (vm_compute; reflexivity).
  assert (H3 : num_param 10 (query Sample.blocked_only !! "limit") = Some 1)
    by (vm_compute; reflexivity).
  split_and!; [exact H1|exact H2|exact H3|].
  exact (proj1 (admin_total_pages_ignore_filter Sample.blocked_only
                  Sample.three_users 1 1 1 H1 H2 H3
                  ltac:(lia) ltac:(lia) ltac:(lia))).
Defined.

(** * Further properties of the handlers *)

(** ** More about the store *)


Lemma matches_with_id (i : N) (d : document) :
  matches (with_id i) d ↔ doc_id d = i.
Proof.
  unfold matches, with_id. simpl. split; [by intros [? _]|].
  intros ?. split; [done|]. apply map_Forall_empty.
Qed.




(** [updateOne] keeps the number and the order of the documents, their
    identifiers, and every field the patch does not name. *)
Lemma updateOne_frame q (patch : gmap string json) (c : list document) :
  length (Store.updateOne q patch c).1 = length c
  ∧ ∀ n d, c !! n = Some d →
      ∃ d', (Store.updateOne q patch c).1 !! n = Some d'
            ∧ doc_id d' = doc_id d
            ∧ ∀ k, patch !! k = None → doc_fields d' !! k = doc_fields d !! k.
Proof.
  unfold Store.updateOne.
  destruct (list_find _ c) as [[i x]|] eqn:E; simpl.
  - split; [by rewrite length_insert|]. intros n d Hn.
    apply list_find_Some in E as (Hi & _).
    destruct (decide (i = n)) as [->|Hne].
    + assert (x = d) as -> by congruence.
      exists (Store.set_fields patch d). split_and!; [|done|].
      * apply list_lookup_insert_eq. by eapply lookup_lt_Some.
      * intros k Hk. by rewrite set_fields_lookup, Hk.
    + exists d. by rewrite list_lookup_insert_ne.
  - split; [done|]. intros n d Hn. by exists d.
Qed.


(** The identifier the store gives a new document is not in use. *)
Lemma fresh_id_above (c : list document) (d : document) :
  d ∈ c → (doc_id d < Store.fresh_id c)%N.
Proof.
  unfold Store.fresh_id. induction c as [|x c IH]; [by intros ?%elem_of_nil|].
  intros [->|Hin]%elem_of_cons; simpl; apply N.lt_succ_r.
  - apply N.le_max_l.
  - specialize (IH Hin). apply N.lt_succ_r in IH.
    etransitivity; [exact IH|apply N.le_max_r].
Qed.


Lemma insertOne_keeps_ids_distinct (c : list document) fields :
  NoDup (doc_id <$> c) → NoDup (doc_id <$> (Store.insertOne fields c).1).
Proof.
  intros Hnd. simpl. rewrite fmap_app. apply NoDup_app. split_and!; [done| |].
  - intros i Hi [->|[]%elem_of_nil]%elem_of_cons. simpl in Hi.
    apply list_elem_of_fmap in Hi as (d & Hd & Hin).
    apply fresh_id_above in Hin. lia.
  - simpl. apply NoDup_singleton.
Qed.

(** ** Donor search *)




(** ** Blogs *)







(** ** Guards in front of the reading routes *)





(** X5.  [GET /admin/donation-requests] is served to a verified caller
    exactly when the first account stored under the token's email has role
    admin or volunteer; a token without email is answered 401, every other
    caller 403, and neither gets a listing. *)
Theorem moderator_listing_guard
    (verifyIdToken : string → option claims) (req req' : request) (s : db) :
  verifyFirebaseToken verifyIdToken req s = Next req' →
  let moderator :=
    ∃ e u, decoded req' ≫= email = Some e ∧ e ≠ ""
           ∧ Store.findOne (with_field "email" (JStr e)) (usersCollection s)
             = Some u
           ∧ (doc_fields u !! "role" = Some (JStr "admin")
              ∨ doc_fields u !! "role" = Some (JStr "volunteer")) in
  let no_email := decoded req' ≫= email = None ∨ decoded req' ≫= email = Some "" in
  (moderator →
   admin_donation_requests_route verifyIdToken req s
   = get_admin_donation_requests req' s)
  ∧ (no_email →
     admin_donation_requests_route verifyIdToken req s
     = Some (Response 401 (Message "Unauthorized access: No email in token.")))
  ∧ (¬ moderator → ¬ no_email →
     admin_donation_requests_route verifyIdToken req s
     = Some (Response 403 (Message "Forbidden access: Admin or Volunteer only."))).
Proof.
  intros Hgate moderator no_email. subst moderator no_email.
  unfold admin_donation_requests_route, read_route. simpl. rewrite Hgate.
  unfold verifyAdminVolunteer.
  destruct (decoded req' ≫= email) as [e|] eqn:He.
  2:{ split_and!; [intros (? & ? & [=] & _)|done|].
      intros _ Hn. destruct Hn. by left. }
  destruct (String.eqb_spec e "") as [->|Hne].
  { split_and!; [intros (? & ? & [= <-] & ? & _); done|done|].
    intros _ Hn. destruct Hn. by right. }
  destruct (Store.findOne _ _) as [u|] eqn:Ef.
  2:{ split_and!; [intros (? & ? & [= <-] & _ & ? & _); congruence| |done].
      intros [[=]|[= ->]]; done. }
  destruct (strict_neq (JStr "admin") (doc_fields u !! "role")) eqn:Ea;
    destruct (strict_neq (JStr "volunteer") (doc_fields u !! "role")) eqn:Ev;
    simpl.
  1:{ split_and!; [|intros [[=]|[= ->]]; done|done].
      intros (? & u' & [= <-] & _ & Hu & [Hr|Hr]);
        assert (u' = u) as -> by congruence;
        apply strict_neq_string in Hr; congruence. }
  all: split_and!; [done|intros [[=]|[= ->]]; done|].
  all: intros Hno; destruct Hno; exists e, u; split_and!; try done.
  - right. by apply strict_neq_string.
  - left. by apply strict_neq_string.
  - left. by apply strict_neq_string.
Qed.

Lemma moderator_listing_guard_witness :
  verifyFirebaseToken Sample.provider (Fixture.bearer "asha-token" ∅) Fixture.town
  = Next (set_decoded (Claims (Some "asha@example.org"))
            (Fixture.bearer "asha-token" ∅))
  ∧ admin_donation_requests_route Sample.provider
      (Fixture.bearer "asha-token" ∅) Fixture.town
    = Some (Response 403 (Message "Forbidden access: Admin or Volunteer only.")).
Proof.
  assert (H : verifyFirebaseToken Sample.provider (Fixture.bearer "asha-token" ∅)
                Fixture.town
              = Next (set_decoded (Claims (Some "asha@example.org"))
                        (Fixture.bearer "asha-token" ∅)))
    by (vm_compute; reflexivity).
  split; [exact H|].
  destruct (moderator_listing_guard Sample.provider _ _ Fixture.town H)
    as (_ & _ & Hdeny).
  apply Hdeny.
  - intros (e & u & [= <-] & _ & Hu & Hr).
    assert (Hf : Store.findOne (with_field "email" (JStr "asha@example.org"))
                   (usersCollection Fixture.town) = Some Sample.asha)
      by (vm_compute; reflexivity).
    rewrite Hf in Hu. injection Hu as <-.
    destruct Hr as [Hr|Hr]; discriminate Hr.
  - intros [H0|H0]; discriminate H0.
Defined.

(** ** What the updating handlers leave alone *)

Lemma updateOne_unmodified q (patch : gmap string json) (c : list document) :
  modifiedCount (Store.updateOne q patch c).2 = 0%nat →
  (Store.updateOne q patch c).1 = c.
Proof.
  unfold Store.updateOne. destruct (list_find _ c) as [[i d]|] eqn:E; [|done].
  simpl. case_decide as Hd; [|done]. intros _. rewrite Hd.
  apply list_insert_id. by apply list_find_Some in E as (? & _).
Qed.

(** Documents of [c'] are those of [c], in place, up to the fields in
    [keys]. *)
Definition same_but (keys : list string) (c c' : list document) : Prop :=
  length c' = length c
  ∧ ∀ n d, c !! n = Some d →
      ∃ d', c' !! n = Some d' ∧ doc_id d' = doc_id d
            ∧ ∀ k, k ∉ keys → doc_fields d' !! k = doc_fields d !! k.

Lemma same_but_refl keys (c : list document) : same_but keys c c.
Proof. split; [done|]. intros n d Hn. by exists d. Qed.

Lemma updateOne_same_but q (patch : gmap string json) keys (c : list document) :
  (∀ k, k ∉ keys → patch !! k = None) →
  same_but keys c (Store.updateOne q patch c).1.
Proof.
  intros Hk. destruct (updateOne_frame q patch c) as [Hlen Hdoc].
  split; [done|]. intros n d Hn.
  destruct (Hdoc n d Hn) as (d' & H1 & H2 & H3). exists d'. auto.
Qed.

Lemma put_if_lookup_ne (cond : bool) (k k' : string) v (m : gmap string json) :
  k ≠ k' → put_if cond k v m !! k' = m !! k'.
Proof. intros Hne. unfold put_if. destruct cond; [by rewrite lookup_insert_ne|done]. Qed.

(** X6.  [PATCH /donation-requests/:id/donate] of [index.js] never
    touches another collection, never adds, removes or reorders requests,
    and changes no field of a request other than status and donor; when
    its answer is not 200 the store is as before. *)
Theorem donate_writes_status_and_donor_only (req : request) (s : db) :
  let out := patch_donate req s in
  usersCollection out.1 = usersCollection s
  ∧ blogsCollection out.1 = blogsCollection s
  ∧ paymentsCollection out.1 = paymentsCollection s
  ∧ same_but ["status"; "donor"] (requestsCollection s) (requestsCollection out.1)
  ∧ (status out.2 = 200 ∨ out.1 = s).
Proof.
  unfold patch_donate.
  set (fields := put_if _ "donor" _ (put_if _ "status" _ ∅)).
  assert (Hk : ∀ k, k ∉ ["status"; "donor"] → fields !! k = None).
  { intros k Hk. subst fields.
    rewrite !put_if_lookup_ne; [done|..]; intros <-; apply Hk; set_solver. }
  case_decide.
  { simpl. split_and!; try done; [apply same_but_refl|by right]. }
  destruct (route_id req) as [i|].
  2:{ simpl. split_and!; try done; [apply same_but_refl|by right]. }
  pose proof (updateOne_same_but (with_id i) fields _ (requestsCollection s) Hk).
  pose proof (updateOne_unmodified (with_id i) fields (requestsCollection s)) as Hun.
  destruct (Store.updateOne (with_id i) fields (requestsCollection s)) as [c r].
  simpl in *. case_decide as Hm; simpl; split_and!; try done; [right|by left].
  rewrite (Hun Hm). unfold set_requests. apply db_eta.
Qed.


(** X8.  [PATCH /users/:email/last-login] changes no field of an account
    other than loginAt and touches nothing else; it does not ask who
    calls. *)
Theorem last_login_writes_loginAt_only (now : string) (req : request) (s : db) :
  let out := patch_last_login now req s in
  requestsCollection out.1 = requestsCollection s
  ∧ blogsCollection out.1 = blogsCollection s
  ∧ paymentsCollection out.1 = paymentsCollection s
  ∧ same_but ["loginAt"] (usersCollection s) (usersCollection out.1)
  ∧ http_status out.2 = 200
  ∧ ∀ a d, patch_last_login now
             (Request a (params req) (query req) (body req) d) s = out.
Proof.
  unfold patch_last_login. cbn [params].
  pose proof (updateOne_same_but (with_field "email" (text (params req !! "email")))
                {[ "loginAt" := JStr now ]} ["loginAt"] (usersCollection s)) as Hsame.
  destruct (Store.updateOne _ _ (usersCollection s)) as [c r]. simpl in *.
  split_and!; try done. apply Hsame. intros k Hk.
  apply lookup_singleton_ne. intros <-. apply Hk. set_solver.
Qed.


(** ** Creating, then reading back *)








(** ** Identifiers are distinct *)

Lemma same_id_same_place (c : list document) n j d x :
  NoDup (doc_id <$> c) →
  c !! n = Some d → c !! j = Some x → doc_id x = doc_id d → j = n.
Proof.
  intros Hnd Hn Hj Hid.
  eapply (NoDup_lookup _ _ _ (doc_id d) Hnd);
    rewrite list_lookup_fmap; [rewrite Hj|rewrite Hn]; simpl; congruence.
Qed.

Lemma find_by_id_unique (c : list document) n d q :
  NoDup (doc_id <$> c) →
  c !! n = Some d → matches q d →
  (∀ x, matches q x → doc_id x = doc_id d) →
  list_find (matches q) c = Some (n, d).
Proof.
  intros Hnd Hn Hm Hq. apply list_find_Some. split_and!; [done..|].
  intros j x Hj Hlt Hx. apply Hq in Hx.
  assert (j = n) by eauto using same_id_same_place. lia.
Qed.

(** X11.  On the first server, with distinct identifiers, two claims in a
    row on a pending request: the first is answered 200 and its donor
    record is stored with status inprogress; the second is answered 400
    and changes nothing, whoever it names. *)
Theorem first_server_second_claim_loses
    (req1 req2 : request) (s : db) (i : N) (n : nat) (d : document) :
  NoDup (doc_id <$> requestsCollection s) →
  route_id req1 = Some i → route_id req2 = Some i →
  requestsCollection s !! n = Some d →
  doc_id d = i →
  doc_fields d !! "status" = Some (JStr "pending") →
  let first := FirstServer.patch_donate req1 s in
  let second := FirstServer.patch_donate req2 first.1 in
  status first.2 = 200
  ∧ status second.2 = 400
  ∧ second.1 = first.1
  ∧ ∃ d',
      requestsCollection second.1 !! n = Some d'
      ∧ doc_id d' = i
      ∧ doc_fields d' !! "status" = Some (JStr "inprogress")
      ∧ doc_fields d' !! "donar"
        = Some (JObj [("donorName", or_null (body req1 !! "donorName"));
                      ("donorEmail", or_null (body req1 !! "donorEmail"))]).
Proof.
  intros Hnd H1 H2 Hn Hid Hst first second.
  assert (Hfind : list_find (matches (FirstServer.claimable i))
                    (requestsCollection s) = Some (n, d)).
  { apply find_by_id_unique; [done..| |].
    - by apply matches_claimable.
    - intros x [? _]%matches_claimable. congruence. }
  set (d' := Store.set_fields (FirstServer.claim_fields (body req1)) d).
  assert (Hfirst : first = (set_requests (<[n := d']> (requestsCollection s)) s,
                            send (Message "Donation confirmed. Status set to inprogress.")))
    by (by apply (first_claim_wins req1 s i)).
  assert (Hd' : doc_fields d' !! "status" = Some (JStr "inprogress")).
  { subst d'. rewrite set_fields_lookup. unfold FirstServer.claim_fields.
    by rewrite lookup_insert_eq. }
  assert (Hlt : (n < length (requestsCollection s))%nat)
    by (by eapply lookup_lt_Some).
  assert (Hnone : list_find (matches (FirstServer.claimable i))
                    (requestsCollection first.1) = None).
  { rewrite Hfirst. simpl. apply list_find_None, Forall_lookup.
    intros j x Hj [Hxi Hxs]%matches_claimable.
    destruct (decide (j = n)) as [->|Hne].
    - rewrite list_lookup_insert_eq in Hj by done. congruence.
    - rewrite list_lookup_insert_ne in Hj by done.
      apply Hne. eapply same_id_same_place; eauto. congruence. }
  assert (Hsecond : second = (first.1,
            Response 400
              (Message "Unable to confirm donation. It may have already been claimed.")))
    by (by apply (first_claim_loses req2 first.1 i)).
  rewrite Hsecond. simpl. rewrite Hfirst. simpl. split_and!; try done.
  exists d'. split_and!; try done.
  - by apply list_lookup_insert_eq.
  - subst d'. rewrite set_fields_lookup. unfold FirstServer.claim_fields.
    by rewrite lookup_insert_ne, lookup_singleton_eq.
Qed.

Lemma first_server_second_claim_loses_witness :
  let s1 := (post_donation_requests "2024-05-01T08:00:00.000Z"
               Sample.new_request Sample.empty_db).1 in
  let first := FirstServer.patch_donate
                 (Sample.claim_by "Asha" "asha@example.org") s1 in
  status (FirstServer.patch_donate
            (Sample.claim_by "Badal" "badal@example.org") first.1).2 = 400.
Proof.
  cbv zeta.
  refine (proj1 (proj2 (first_server_second_claim_loses
            (Sample.claim_by "Asha" "asha@example.org")
            (Sample.claim_by "Badal" "badal@example.org")
            (post_donation_requests "2024-05-01T08:00:00.000Z"
               Sample.new_request Sample.empty_db).1
            1%N 0%nat _ _ _ _ _ _ _))).
  - vm_compute. apply NoDup_singleton.
  - vm_compute. reflexivity.
  - vm_compute. reflexivity.
  - reflexivity.
  - reflexivity.
  - reflexivity.
Defined.

(** ** Deleting a request *)

(** X12.  [DELETE /donation-requests/:id] with a well-formed id, on a
    store with distinct identifiers: when no request has the id the
    answer is 404 and the store is as before; otherwise the answer is
    200, exactly that request is gone, the others keep their order, and
    [GET /donation-requests/:id] for the same id then answers 404.  A
    malformed id is answered 400. *)
Theorem delete_request_removes_it (req get : request) (s : db) (i : N) :
  NoDup (doc_id <$> requestsCollection s) →
  route_id req = Some i → route_id get = Some i →
  let out := delete_donation_request req s in
  match list_find (matches (with_id i)) (requestsCollection s) with
  | None =>
      out = (s, Answer 404 (Plain (Message "Donation request not found")))
  | Some (n, d) =>
      out.2 = Answer 200 (Plain (Message "Donation request deleted successfully"))
      ∧ requestsCollection out.1
        = take n (requestsCollection s) ++ drop (S n) (requestsCollection s)
      ∧ usersCollection out.1 = usersCollection s
      ∧ blogsCollection out.1 = blogsCollection s
      ∧ paymentsCollection out.1 = paymentsCollection s
      ∧ get_donation_request get out.1
        = Answer 404 (Plain (Message "Donation request not found."))
  end
  ∧ ∀ bad, route_id bad = None →
        delete_donation_request bad s
        = (s, Answer 400 (Plain (Message "Invalid ID format"))).
Proof.
  intros Hnd Hreq Hget out. subst out. split.
  2:{ intros bad Hbad. unfold delete_donation_request. by rewrite Hbad. }
  unfold delete_donation_request, deleteOne. rewrite Hreq.
  destruct (list_find _ _) as [[n d]|] eqn:Hfind; simpl.
  2:{ unfold set_requests. by rewrite db_eta. }
  apply list_find_Some in Hfind as (Hn & Hm & _). apply matches_with_id in Hm.
  rewrite delete_take_drop. split_and!; try done.
  unfold get_donation_request, Store.findOne. rewrite Hget. simpl.
  destruct (list_find _ _) as [[j x]|] eqn:Hj; [|done]. exfalso.
  apply list_find_Some in Hj as (Hj & Hx & _). apply matches_with_id in Hx.
  apply lookup_app_Some in Hj as [Hj|[Hge Hj]].
  - apply lookup_take_Some in Hj as [Hj Hlt].
    assert (j = n) by (eapply same_id_same_place; eauto; congruence). lia.
  - rewrite lookup_drop in Hj.
    assert (S n + (j - length (take n (requestsCollection s))) = n)%nat
      by (eapply same_id_same_place; eauto; congruence).
    lia.
Qed.

Lemma delete_request_removes_it_witness :
  delete_donation_request (Fixture.on_id "1" ∅) Fixture.town
  = (set_requests [Fixture.finished] Fixture.town,
     Answer 200 (Plain (Message "Donation request deleted successfully"))).
Proof.
  assert (Hnd : NoDup (doc_id <$> requestsCollection Fixture.town)).
  { vm_compute. apply NoDup_cons. split; [|apply NoDup_singleton].
    intros [=]%list_elem_of_singleton. }
  assert (Hid : route_id (Fixture.on_id "1" ∅) = Some 1%N)
    by (vm_compute; reflexivity).
  assert (Hf : list_find (matches (with_id 1)) (requestsCollection Fixture.town)
               = Some (0%nat, Sample.rina 1 "01")) by (vm_compute; reflexivity).
  destruct (delete_request_removes_it (Fixture.on_id "1" ∅)
              (Fixture.on_id "1" ∅) Fixture.town 1%N Hnd Hid Hid) as [H _].
  rewrite Hf in H. destruct H as (H2 & H1 & Hu & Hb & Hp & _).
  destruct (delete_donation_request (Fixture.on_id "1" ∅) Fixture.town)
    as [s' a]. simpl in *. subst a. f_equal.
  destruct s'. simpl in *. by subst.
Defined.

(** ** Payments and the dashboard *)

(** X13.  [POST /api/save-payment] answers 400 and stores nothing unless
    the payment id, the amount and the email are all truthy (an amount of
    0 is refused); otherwise it appends one payment made of those three
    values, the time and status completed, and of nothing else the body
    carries. *)
Theorem save_payment_records (now : string) (req : request) (s : db) :
  let out := post_save_payment now req s in
  usersCollection out.1 = usersCollection s
  ∧ requestsCollection out.1 = requestsCollection s
  ∧ blogsCollection out.1 = blogsCollection s
  ∧ if truthy (body req !! "paymentIntentId") && truthy (body req !! "amount")
       && truthy (body req !! "email")
    then ∃ p,
           paymentsCollection out.1 = paymentsCollection s ++ [p]
           ∧ out.2 = Answer 200 (Saved (doc_id p))
           ∧ doc_fields p !! "paymentIntentId" = body req !! "paymentIntentId"
           ∧ doc_fields p !! "amount" = body req !! "amount"
           ∧ doc_fields p !! "email" = body req !! "email"
           ∧ doc_fields p !! "paidAt" = Some (JStr now)
           ∧ doc_fields p !! "status" = Some (JStr "completed")
           ∧ ∀ k, k ∉ ["paymentIntentId"; "amount"; "email"; "paidAt"; "status"] →
                  doc_fields p !! k = None
    else out = (s, Answer 400 (Plain (Message "Missing payment details"))).
Proof.
  assert (Hval : ∀ o : option json, truthy o = true → Some (or_null o) = o)
    by (by intros [v|]).
  unfold post_save_payment.
  destruct (truthy (body req !! "paymentIntentId")) eqn:Hp;
    destruct (truthy (body req !! "amount")) eqn:Ha;
    destruct (truthy (body req !! "email")) eqn:He;
    cbn [negb orb andb]; try (by split_and!).
  cbn [Store.insertOne fst snd set_payments usersCollection requestsCollection
       blogsCollection paymentsCollection].
  split_and!; try done. eexists (Doc _ _). split; [reflexivity|].
  cbn [doc_id doc_fields]. split_and!; try done.
  - by rewrite lookup_insert_eq, Hval.
  - do 2 (rewrite lookup_insert_ne by done). by rewrite lookup_insert_eq, Hval.
  - rewrite lookup_insert_ne by done. by rewrite lookup_insert_eq, Hval.
  - intros k Hk. rewrite !lookup_insert_ne, lookup_singleton_ne; [done|..];
      intros <-; apply Hk; set_solver.
Qed.




(** ** Counting by status *)

Lemma group_count_count_in (k k' : json) (groups : list (json * nat)) :
  group_count k (count_in k' groups)
  = if decide (k = k') then S (group_count k groups) else group_count k groups.
Proof.
  induction groups as [|[k0 n] rest IH]; simpl.
  - by repeat case_decide.
  - destruct (decide (k' = k0)) as [->|Hne]; simpl.
    + by repeat case_decide.
    + rewrite IH. repeat case_decide; congruence.
Qed.

Lemma count_in_keys (k : json) (groups : list (json * nat)) :
  (count_in k groups).*1
  = if decide (k ∈ groups.*1) then groups.*1 else groups.*1 ++ [k].
Proof.
  induction groups as [|[k0 n] rest IH].
  - cbn [count_in fmap list_fmap fst].
    destruct (decide (k ∈ [])) as [H|H]; [|reflexivity].
    by apply elem_of_nil in H.
  - cbn [count_in]. destruct (decide (k = k0)) as [->|Hne].
    + rewrite !fmap_cons. cbn [fst].
      destruct (decide (k0 ∈ k0 :: rest.*1)) as [H|H]; [reflexivity|].
      destruct H. by left.
    + rewrite !fmap_cons, IH. cbn [fst].
      destruct (decide (k ∈ rest.*1)) as [Hin|Hin];
        destruct (decide (k ∈ k0 :: rest.*1)) as [H|H]; try reflexivity.
      * destruct H. by right.
      * apply elem_of_cons in H as [?|?]; done.
Qed.

Lemma list_sum_cons (a : nat) (l : list nat) :
  list_sum (a :: l) = (a + list_sum l)%nat.
Proof. reflexivity. Qed.

Lemma count_in_sum (k : json) (groups : list (json * nat)) :
  list_sum (count_in k groups).*2 = S (list_sum groups.*2).
Proof.
  induction groups as [|[k0 n] rest IH]; [done|].
  cbn [count_in]. destruct (decide (k = k0)).
  - rewrite !fmap_cons, !list_sum_cons. cbn [snd]. lia.
  - rewrite !fmap_cons, !list_sum_cons, IH. cbn [snd]. lia.
Qed.

Lemma count_in_positive (k : json) (groups : list (json * nat)) :
  Forall (λ g, 0 < g.2)%nat groups → Forall (λ g, 0 < g.2)%nat (count_in k groups).
Proof.
  induction 1 as [|[k0 n] rest Hn Hrest IH]; simpl.
  - repeat constructor.
  - case_decide; constructor; simpl in *; auto with lia.
Qed.

(** What [tally] keeps, for any starting breakdown. *)
Lemma tally_from (keys : list json) (groups : list (json * nat)) :
  let out := foldl (λ g k, count_in k g) groups keys in
  (NoDup groups.*1 → NoDup out.*1)
  ∧ (Forall (λ g, 0 < g.2)%nat groups → Forall (λ g, 0 < g.2)%nat out)
  ∧ list_sum out.*2 = (list_sum groups.*2 + length keys)%nat
  ∧ ∀ k, group_count k out
         = (group_count k groups + length (filter (λ x, x = k) keys))%nat.
Proof.
  revert groups. induction keys as [|x keys IH]; intros groups; simpl.
  { split_and!; auto with lia. }
  destruct (IH (count_in x groups)) as (Hnd & Hpos & Hsum & Hcount).
  split_and!.
  - intros H. apply Hnd. rewrite count_in_keys. case_decide; [done|].
    apply NoDup_app. split_and!; [done| |apply NoDup_singleton].
    by intros y Hy ->%list_elem_of_singleton.
  - intros H. by apply Hpos, count_in_positive.
  - rewrite Hsum, count_in_sum. cbn [length]. lia.
  - intros k. rewrite Hcount, group_count_count_in, filter_cons.
    destruct (decide (k = x)) as [->|Hne].
    + rewrite decide_True by done. cbn [length]. lia.
    + rewrite decide_False by congruence. lia.
Qed.

Lemma group_by_status_counts (c : list document) :
  NoDup (group_by_status c).*1
  ∧ Forall (λ g, 0 < g.2)%nat (group_by_status c)
  ∧ list_sum (group_by_status c).*2 = length c
  ∧ ∀ k, group_count k (group_by_status c)
         = length (filter (λ d, status_key d = k) c).
Proof.
  destruct (tally_from (status_key <$> c) []) as (Hnd & Hpos & Hsum & Hcount).
  unfold group_by_status, tally. split_and!.
  - apply Hnd. constructor.
  - apply Hpos. constructor.
  - rewrite Hsum. simpl. by rewrite length_fmap.
  - intros k. rewrite Hcount. simpl. clear.
    induction c as [|d c IH]; [done|].
    rewrite fmap_cons, !filter_cons. repeat case_decide; simpl; congruence.
Qed.

(** X15.  [GET /request-status-count] answers, for the requests of the
    email asked for, one group per distinct status (a request without
    status counting under null), each with the number of requests of that
    status, so the counts add up to the number of requests; the total
    facet holds that number, and is empty (not 0) when there is no
    request. *)
Theorem status_counts_add_up (req : request) (s : db) :
  let matched :=
    Store.find (with_field "requesterEmail" (text (query req !! "email")))
      (requestsCollection s) in
  ∃ groups total,
    get_request_status_count req s = Answer 200 (Facets groups total)
    ∧ NoDup groups.*1
    ∧ Forall (λ g, 0 < g.2)%nat groups
    ∧ (∀ k, group_count k groups
            = length (filter (λ d, status_key d = k) matched))
    ∧ list_sum groups.*2 = length matched
    ∧ total = match matched with [] => [] | _ => [length matched] end.
Proof.
  intros matched. eexists _, _. split; [reflexivity|]. fold matched.
  destruct (group_by_status_counts matched) as (Hnd & Hpos & Hsum & Hcount).
  split_and!; try done. by destruct matched.
Qed.

(** X16.  [GET /blogs/stats] answers one group per distinct blog status
    with its number of blogs; the counts add up to the number of blogs,
    which is the total answered, and the total is left out when there is
    no blog. *)
Theorem blog_stats_add_up (req : request) (s : db) :
  ∃ groups total,
    get_blogs_stats req s = Answer 200 (BlogStats groups total)
    ∧ NoDup groups.*1
    ∧ (∀ k, group_count k groups
            = length (filter (λ d, status_key d = k) (blogsCollection s)))
    ∧ list_sum groups.*2 = length (blogsCollection s)
    ∧ total = match blogsCollection s with
              | [] => None
              | _ => Some (list_sum groups.*2)
              end.
Proof.
  eexists _, _. split; [reflexivity|].
  destruct (group_by_status_counts (blogsCollection s))
    as (Hnd & Hpos & Hsum & Hcount).
  split_and!; try done. rewrite Hsum. by destruct (blogsCollection s).
Qed.

(** ** Pages put together *)





(** ** The unconditional request update *)



(** ** Instances on the sample data *)

Lemma first_server_keeps_accepted_donor_witness :
  requestsCollection
    (run_first [Claim (Sample.claim_by "Badal" "badal@example.org");
                Create "2024-06-01T00:00:00.000Z" Sample.new_request;
                Claim (Sample.claim_by "Asha" "asha@example.org")]
       Sample.store0) !! 0%nat = Some Sample.canceled.
Proof.
  apply (first_server_keeps_accepted_donor _ Sample.store0 0%nat Sample.canceled).
  - reflexivity.
  - vm_compute. intros H. discriminate H.
Defined.

Lemma admin_listings_refuse_witness :
  admin_users_route Sample.provider
    (Sample.with_bearer "Bearer asha-token" ∅) Sample.store0 = Some forbidden
  ∧ fundraiser_payments_route Sample.provider
      (Sample.with_bearer "Bearer asha-token" ∅) Sample.store0 = Some forbidden.
Proof.
  apply (admin_listings_refuse Sample.provider
           (Sample.with_bearer "Bearer asha-token" ∅)
           (set_decoded (Claims (Some "asha@example.org"))
              (Sample.with_bearer "Bearer asha-token" ∅)) Sample.store0).
  - vm_compute. reflexivity.
  - vm_compute. intros H. discriminate H.
Defined.
